(** * The chat relay of [api.py]: a Flask handler in front of the Groq client

    The module [api.py] exposes two routes.  [chat] (POST /api/chat) reads
    the JSON body, extracts the key ['message'], rejects a falsy value with
    a 400, otherwise calls [client.chat.completions.create] once and
    answers with the content of the first choice; the whole body sits in a
    [try], and [except Exception as e] turns every exception into a 500
    carrying [str(e)].  [health_check] (GET /api/health) answers with a
    constant.

    The embedding follows the source line by line.  Python values that can
    come out of a JSON document are an inductive type; the handler runs in
    a small state-and-exception monad whose state holds the world of the
    upstream service and the log of outbound calls.  What lives outside the
    module is taken as an input: the outcome of [request.get_json()] is a
    field of the request, and [client.chat.completions.create] is a
    function of the keyword arguments and the upstream world that either
    returns a completion object or raises.  An exception carries its class
    and the classes it derives from, so that [except Exception] catches
    what Python catches and lets [KeyboardInterrupt], [SystemExit] and the
    like through.  The module body, which builds the client from the
    environment before any route can answer, is the start-up step
    [load_module]. *)

From Stdlib Require Import String ZArith List Bool.
From Stdlib Require Import Floats.SpecFloat.
Import ListNotations.
Local Open Scope string_scope.
Local Open Scope Z_scope.

#[local] Set Warnings "-register-all".

(** ** Python values *)

(** The values [json.loads] produces, and [jsonify] accepts: [None],
    [bool], [int], [float], [str], [list] and [dict] with string keys.  A
    dict is kept as the list of its items in insertion order. *)
Inductive value : Type :=
| VNone
| VBool (b : bool)
| VInt (n : Z)
| VFloat (f : spec_float)
| VStr (s : string)
| VList (l : list value)
| VDict (d : list (string * value)).

(** [type(v).__name__] *)
Definition type_name (v : value) : string :=
  match v with
  | VNone => "NoneType"
  | VBool _ => "bool"
  | VInt _ => "int"
  | VFloat _ => "float"
  | VStr _ => "str"
  | VList _ => "list"
  | VDict _ => "dict"
  end.

(** [bool(v)]: Python's truth value testing.  [None], [False], numeric
    zero, and the empty string, list and dict are false; everything else is
    true. *)
Definition truthy (v : value) : bool :=
  match v with
  | VNone => false
  | VBool b => b
  | VInt n => negb (n =? 0)
  | VFloat (S754_zero _) => false
  | VFloat _ => true
  | VStr s => negb (String.eqb s "")
  | VList l => match l with [] => false | _ :: _ => true end
  | VDict d => match d with [] => false | _ :: _ => true end
  end.

(** Lookup of a key among the items of a dict.  The keys of a Python dict
    are distinct, so at most one item matches. *)
Fixpoint dict_lookup (d : list (string * value)) (k : string) : option value :=
  match d with
  | [] => None
  | (k', v) :: d' => if String.eqb k' k then Some v else dict_lookup d' k
  end.

(** [d.get(k, default)] on a dict. *)
Definition dict_get (d : list (string * value)) (k : string) (default : value)
  : value :=
  match dict_lookup d k with
  | Some v => v
  | None => default
  end.

(** ** Exceptions and results *)

(** An exception object: the name of its class, the names of the classes
    that class derives from, nearest first, and what [str(e)] gives. *)
Record exn : Type :=
  Exn { exn_class : string; exn_bases : list string; exn_str : string }.

Definition py_str (e : exn) : string := exn_str e.

(** [isinstance(e, cls)]: [cls] is the class of [e] or one of its bases. *)
Definition isinstance (e : exn) (cls : string) : bool :=
  String.eqb (exn_class e) cls || existsb (String.eqb cls) (exn_bases e).

Definition AttributeError (v : value) (attr : string) : exn :=
  Exn "AttributeError" [ "Exception"; "BaseException" ]
      ("'" ++ type_name v ++ "' object has no attribute '" ++ attr ++ "'").

Definition IndexError : exn :=
  Exn "IndexError" [ "LookupError"; "Exception"; "BaseException" ]
      "list index out of range".

(** [KeyboardInterrupt()] and [SystemExit(1)] derive from [BaseException]
    alone. *)
Definition KeyboardInterrupt : exn :=
  Exn "KeyboardInterrupt" [ "BaseException" ] "".

Definition SystemExit : exn := Exn "SystemExit" [ "BaseException" ] "1".

(** The outcome of evaluating an expression: a value or a raised
    exception. *)
Inductive py_result (A : Type) : Type :=
| Return (a : A)
| Raise (e : exn).
Arguments Return {A} a.
Arguments Raise {A} e.

(** ** The Groq client's objects *)

Module Groq.

(** [ChatCompletionMessage]: [content] is declared [Optional[str]]. *)
Record chat_message : Type := { content : option string }.

(** [Choice] *)
Record choice : Type := { message : chat_message }.

(** [ChatCompletion] *)
Record chat_completion : Type := { choices : list choice }.

(** The keyword arguments of one [chat.completions.create] call, in the
    order they are written. *)
Definition kwargs : Type := list (string * value).

End Groq.

(** ** Requests and responses *)

(** The inbound request, as far as [chat] looks at it: what
    [request.get_json()] evaluates to.  A body that is valid JSON gives
    [Return v]; a body that does not parse, or a content type Flask
    refuses, gives [Raise e] with werkzeug's exception. *)
Record request : Type := { get_json : py_result value }.

(** A Flask response: the JSON document of the body and the status code. *)
Record response : Type := { body : value; status : Z }.

(** [jsonify(d)] for a dict literal [d]: a 200 response with that body. *)
Definition jsonify (d : list (string * value)) : response :=
  {| body := VDict d; status := 200 |}.

(** A view returning the pair [(resp, code)] overrides the status. *)
Definition with_status (r : response) (code : Z) : response :=
  {| body := body r; status := code |}.

(** The content of a completion message as a JSON value. *)
Definition content_value (c : option string) : value :=
  match c with
  | Some s => VStr s
  | None => VNone
  end.

(** ** Start-up *)

(** [os.environ]: the variables of the process, by name. *)
Definition environ : Type := list (string * string).

(** [os.environ.get(k)] *)
Fixpoint os_environ_get (env : environ) (k : string) : option string :=
  match env with
  | [] => None
  | (k', v) :: env' => if String.eqb k' k then Some v else os_environ_get env' k
  end.

Module GroqClient.

(** The client object: the key it was built with. *)
Record client : Type := { api_key : string }.

Definition GroqError : exn :=
  Exn "GroqError" [ "Exception"; "BaseException" ]
      "The api_key client option must be set either by passing api_key to the client or by setting the GROQ_API_KEY environment variable".

(** [Groq(api_key=k)], the constructor of the groq package: a key that
    is [None] is looked up once more in the environment under
    [GROQ_API_KEY], and when there is none the constructor raises
    [GroqError].  The key is not checked against the service here. *)
Definition Groq (env : environ) (k : option string) : py_result client :=
  match k with
  | Some key => Return {| api_key := key |}
  | None =>
      match os_environ_get env "GROQ_API_KEY" with
      | Some key => Return {| api_key := key |}
      | None => Raise GroqError
      end
  end.

End GroqClient.

(** The views the decorators on lines 12 and 45 register. *)
Inductive view : Type := ChatView | HealthView.

(** What the module body leaves when it runs to its end: the client of
    line 10 and the routes of lines 12 and 45, each with its methods. *)
Record application : Type :=
  { client : GroqClient.client;
    url_map : list (string * list string * view) }.

(** The module body, lines 6-47, run in the environment [env]: the
    client is built from [os.environ.get("GROQ_API_KEY")] on line 10,
    outside any [try], so an exception of the constructor ends the import
    and no route is registered. *)
Definition load_module (env : environ) : py_result application :=
  match GroqClient.Groq env (os_environ_get env "GROQ_API_KEY") with
  | Return c =>
      Return {| client := c;
                url_map := [ ("/api/chat", [ "POST" ], ChatView);
                             ("/api/health", [ "GET" ], HealthView) ] |}
  | Raise e => Raise e
  end.

(** ** The handler's monad *)

Section Relay.

(** The state of the upstream service, and the client's
    [chat.completions.create]: given the keyword arguments it returns a
    completion or raises, and may change the upstream state. *)
Variable World : Type.
Variable groq_create :
  Groq.kwargs -> World -> py_result Groq.chat_completion * World.

(** What a request can touch: the upstream world, and the log of the
    outbound calls issued so far, oldest first. *)
Record state : Type := { world : World; calls : list Groq.kwargs }.

Definition M (A : Type) : Type := state -> py_result A * state.

Definition ret {A} (a : A) : M A := fun s => (Return a, s).

Definition raise {A} (e : exn) : M A := fun s => (Raise e, s).

Definition bind {A B} (m : M A) (k : A -> M B) : M B :=
  fun s =>
    match m s with
    | (Return a, s') => k a s'
    | (Raise e, s') => (Raise e, s')
    end.

(** [try: m  except cls as e: h e]: the handler runs for an exception
    that is an instance of [cls]; any other exception goes on to the
    caller. *)
Definition try_except {A} (m : M A) (cls : string) (h : exn -> M A) : M A :=
  fun s =>
    match m s with
    | (Return a, s') => (Return a, s')
    | (Raise e, s') =>
        if isinstance e cls then h e s' else (Raise e, s')
    end.

Definition lift {A} (r : py_result A) : M A := fun s => (r, s).

Notation "x <- m ;; k" := (bind m (fun x => k))
  (at level 100, m at next level, right associativity).

(** [data.get(k, default)]: the dict method, or [AttributeError] on a
    value of another type. *)
Definition py_get (data : value) (k : string) (default : value) : M value :=
  match data with
  | VDict d => ret (dict_get d k default)
  | _ => raise (AttributeError data "get")
  end.

(** [l[0]] on a list. *)
Definition py_first {A} (l : list A) : M A :=
  match l with
  | x :: _ => ret x
  | [] => raise IndexError
  end.

(** [client.chat.completions.create] applied to the keyword arguments
    [kw]: the call is logged, the upstream answers. *)
Definition create (kw : Groq.kwargs) : M Groq.chat_completion :=
  fun s =>
    let (r, w) := groq_create kw (world s) in
    (r, {| world := w; calls := calls s ++ [kw] |}).

(** ** The two views *)

Definition model_id : string := "llama-3.3-70b-versatile".

(** The keyword arguments of the call on lines 22-30. *)
Definition chat_kwargs (user_message : value) : Groq.kwargs :=
  [ ("messages",
     VList [ VDict [ ("role", VStr "user"); ("content", user_message) ] ]);
    ("model", VStr model_id) ].

Definition message_required : response :=
  with_status (jsonify [ ("error", VStr "Message is required") ]) 400.

Definition success_response (c : option string) : response :=
  jsonify [ ("response", content_value c); ("success", VBool true) ].

Definition error_response (e : exn) : response :=
  with_status
    (jsonify [ ("error", VStr (py_str e)); ("success", VBool false) ]) 500.

(** The body of the [try] block of [chat], lines 15-37. *)
Definition chat_try (req : request) : M response :=
  data <- lift (get_json req) ;;
  user_message <- py_get data "message" (VStr "") ;;
  if negb (truthy user_message) then
    ret message_required
  else
    chat_completion <- create (chat_kwargs user_message) ;;
    first <- py_first (Groq.choices chat_completion) ;;
    let response := Groq.content (Groq.message first) in
    ret (success_response response).

(** [chat], lines 13-43. *)
Definition chat (req : request) : M response :=
  try_except (chat_try req) "Exception" (fun e => ret (error_response e)).

(** [health_check], lines 46-47. *)
Definition health_check : M response :=
  ret (jsonify [ ("status", VStr "healthy") ]).

End Relay.

Arguments world {World} s.
Arguments calls {World} s.
Arguments ret {World A} a s.
Arguments raise {World A} e s.
Arguments bind {World A B} m k s.
Arguments try_except {World A} m cls h s.
Arguments lift {World A} r s.
Arguments py_get {World} data k default s.
Arguments py_first {World A} l s.
Arguments create {World} groq_create kw s.
Arguments chat_try {World} groq_create req s.
Arguments chat {World} groq_create req s.
Arguments health_check {World} s.

(** A GET /api/health sent to the process started in the environment
    [env]: the module is loaded, then the view registered for the route
    runs. *)
Definition get_health {World : Type} (env : environ) : M World response :=
  bind (lift (load_module env)) (fun _ => health_check).

(** ** Vocabulary of the properties *)

(** The value line 16 binds to [user_message] when the body is the dict
    with items [d]. *)
Definition extracted (d : list (string * value)) : value :=
  dict_get d "message" (VStr "").

(** A field of a response body, when the body is a JSON object. *)
Definition field (r : response) (k : string) : option value :=
  match body r with
  | VDict d => dict_lookup d k
  | _ => None
  end.

(** The state after the call on lines 22-30, made with the message [v],
    when the upstream leaves the world [w]. *)
Definition forwarded {World : Type} (s : state World) (v : value) (w : World)
  : state World :=
  {| world := w; calls := calls s ++ [chat_kwargs v] |}.

(** The failures of the [try] block, by cause: the inbound body does not
    deserialize; it deserializes to something that is not an object; the
    upstream call raises; the upstream result has no first choice. *)
Inductive chat_failure {World : Type}
  (groq_create : Groq.kwargs -> World -> py_result Groq.chat_completion * World)
  (req : request) (s : state World) : exn -> Prop :=
| fail_deserialize e :
    get_json req = Raise e ->
    chat_failure groq_create req s e
| fail_not_object v :
    get_json req = Return v ->
    (forall d, v <> VDict d) ->
    chat_failure groq_create req s (AttributeError v "get")
| fail_upstream d e :
    get_json req = Return (VDict d) ->
    truthy (extracted d) = true ->
    fst (groq_create (chat_kwargs (extracted d)) (world s)) = Raise e ->
    chat_failure groq_create req s e
| fail_no_choice d c :
    get_json req = Return (VDict d) ->
    truthy (extracted d) = true ->
    fst (groq_create (chat_kwargs (extracted d)) (world s)) = Return c ->
    Groq.choices c = [] ->
    chat_failure groq_create req s IndexError.

(** Following the specification's words: a request "whose body lacks a
    message field or whose message equals the empty string", the absence
    arising from an object without the key, from a body that is not an
    object, or from a body that does not parse. *)
Definition message_absent_or_empty (req : request) : bool :=
  match get_json req with
  | Return (VDict d) =>
      match dict_lookup d "message" with
      | None => true
      | Some (VStr s) => String.eqb s ""
      | Some _ => false
      end
  | Return _ => true
  | Raise _ => true
  end.

(** Following the specification's words: a request whose message is a
    non-empty string. *)
Definition message_nonempty_string (req : request) : bool :=
  match get_json req with
  | Return (VDict d) =>
      match dict_lookup d "message" with
      | Some (VStr s) => negb (String.eqb s "")
      | _ => false
      end
  | _ => false
  end.

(** Following the specification's words: "a 200 with a string [response]
    field and [success: true], or a 500 with [success: false] and a
    non-empty [error] string". *)
Definition ok_or_error_shape (r : response) : bool :=
  match status r with
  | 200 =>
      match field r "response", field r "success" with
      | Some (VStr _), Some (VBool true) => true
      | _, _ => false
      end
  | 500 =>
      match field r "error", field r "success" with
      | Some (VStr m), Some (VBool false) => negb (String.eqb m "")
      | _, _ => false
      end
  | _ => false
  end.

(** Following the specification's words: the two [ChatResponse] shapes,
    [{response: string, success: boolean}] and
    [{error: string, success: boolean}], with [success] telling which. *)
Definition chat_response_shape (r : response) : bool :=
  match body r with
  | VDict [ ("response", VStr _); ("success", VBool b) ] => b
  | VDict [ ("error", VStr _); ("success", VBool b) ] => negb b
  | _ => false
  end.

(** What the handler produces: the success shape with the content as the
    upstream gave it, the failure shape, or the bare rejection. *)
Inductive chat_shape : response -> Prop :=
| shape_success c :
    chat_shape
      {| body := VDict [ ("response", content_value c); ("success", VBool true) ];
         status := 200 |}
| shape_failure m :
    chat_shape
      {| body := VDict [ ("error", VStr m); ("success", VBool false) ];
         status := 500 |}
| shape_rejection :
    chat_shape
      {| body := VDict [ ("error", VStr "Message is required") ];
         status := 400 |}.

(** The message that lines 15-18 let through to the upstream call: the
    extracted value, when the body is an object and that value is truthy. *)
Definition forwarded_message (req : request) : option value :=
  match get_json req with
  | Return (VDict d) =>
      if truthy (extracted d) then Some (extracted d) else None
  | _ => None
  end.

(** Requests handled one after the other, each by a run of [chat] that
    starts in the state the previous run left. *)
Fixpoint chat_each {World : Type}
  (groq_create : Groq.kwargs -> World -> py_result Groq.chat_completion * World)
  (reqs : list request) : M World (list response) :=
  match reqs with
  | [] => ret []
  | req :: rest =>
      bind (chat groq_create req) (fun r =>
      bind (chat_each groq_create rest) (fun rs =>
      ret (r :: rs)))
  end.

(** ** Sample upstreams and requests *)

Module Samples.

(** The upstream world of the samples counts the calls it served. *)
Definition completion (c : option string) : Groq.chat_completion :=
  {| Groq.choices := [ {| Groq.message := {| Groq.content := c |} |} ] |}.

(** A healthy upstream. *)
Definition upstream_ok (kw : Groq.kwargs) (w : nat)
  : py_result Groq.chat_completion * nat :=
  (Return (completion (Some "Hi there!")), S w).

(** An upstream whose first choice carries no content. *)
Definition upstream_no_content (kw : Groq.kwargs) (w : nat)
  : py_result Groq.chat_completion * nat :=
  (Return (completion None), S w).

(** An upstream that answers with an empty list of choices. *)
Definition upstream_no_choices (kw : Groq.kwargs) (w : nat)
  : py_result Groq.chat_completion * nat :=
  (Return {| Groq.choices := [] |}, S w).

(** An upstream that refuses the credential. *)
Definition unauthorized : exn :=
  Exn "AuthenticationError"
      [ "APIStatusError"; "APIError"; "GroqError"; "Exception";
        "BaseException" ]
      "Error code: 401 - Invalid API Key".

Definition upstream_unauthorized (kw : Groq.kwargs) (w : nat)
  : py_result Groq.chat_completion * nat :=
  (Raise unauthorized, S w).

(** An upstream raising an exception built without arguments, whose
    [str] is empty. *)
Definition upstream_silent (kw : Groq.kwargs) (w : nat)
  : py_result Groq.chat_completion * nat :=
  (Raise (Exn "Exception" [ "BaseException" ] ""), S w).

(** An upstream call interrupted from the keyboard while it waits. *)
Definition upstream_interrupted (kw : Groq.kwargs) (w : nat)
  : py_result Groq.chat_completion * nat :=
  (Raise KeyboardInterrupt, S w).

(** An upstream call during which the worker is told to exit. *)
Definition upstream_exiting (kw : Groq.kwargs) (w : nat)
  : py_result Groq.chat_completion * nat :=
  (Raise SystemExit, S w).

(** An environment without the credential, and one with a credential
    the service would refuse. *)
Definition env_no_key : environ := [ ("PATH", "/usr/bin") ].

Definition env_bad_key : environ :=
  [ ("PATH", "/usr/bin"); ("GROQ_API_KEY", "not-a-key") ].

Definition s0 : state nat := {| world := 0%nat; calls := [] |}.

Definition req_of (v : value) : request := {| get_json := Return v |}.

(** [{"message": "Hello"}] *)
Definition req_hello : request := req_of (VDict [ ("message", VStr "Hello") ]).

(** [{}] *)
Definition req_empty_object : request := req_of (VDict []).

(** [{"message": ""}] *)
Definition req_empty_message : request :=
  req_of (VDict [ ("message", VStr "") ]).

(** [[]], a JSON document that is not an object *)
Definition req_array : request := req_of (VList []).

(** [{"message": 42}] *)
Definition req_number : request := req_of (VDict [ ("message", VInt 42) ]).

(** A body that is not JSON: werkzeug's [BadRequest]. *)
Definition bad_request : exn :=
  Exn "BadRequest" [ "HTTPException"; "Exception"; "BaseException" ]
      "400 Bad Request: The browser (or proxy) sent a request that this server could not understand.".

Definition req_malformed : request := {| get_json := Raise bad_request |}.

(** [{"message": "Hello", "history": ["one", "two"], "model": "other"}] *)
Definition req_hello_extra : request :=
  req_of (VDict [ ("history", VList [ VStr "one"; VStr "two" ]);
                  ("message", VStr "Hello");
                  ("model", VStr "other") ]).

(** An upstream that answers with two choices. *)
Definition upstream_two_choices (kw : Groq.kwargs) (w : nat)
  : py_result Groq.chat_completion * nat :=
  (Return {| Groq.choices :=
               [ {| Groq.message := {| Groq.content := Some "Hi there!" |} |};
                 {| Groq.message := {| Groq.content := Some "Good day." |} |} ] |},
   S w).

End Samples.

(** ** Truth values *)

Lemma truthy_false_iff (v : value) :
  truthy v = false <->
  v = VNone \/ v = VBool false \/ v = VInt 0 \/
  (exists sign, v = VFloat (S754_zero sign)) \/
  v = VStr "" \/ v = VList [] \/ v = VDict [].
Proof.
  split.
  - destruct v as [|b|n|f|t|l|d]; cbn; intros Hv.
    + auto.
    + subst b. auto.
    + apply negb_false_iff, Z.eqb_eq in Hv. subst n. auto.
    + destruct f; try discriminate. eauto 6.
    + apply negb_false_iff, String.eqb_eq in Hv. subst t. auto 6.
    + destruct l; [auto 7|discriminate].
    + destruct d; [auto 8|discriminate].
  - intros [->|[->|[->|[[sign ->]|[->|[->| ->]]]]]]; reflexivity.
Qed.

(** ** Properties of the handler *)

Section Properties.

Context {World : Type}.
Variable groq_create :
  Groq.kwargs -> World -> py_result Groq.chat_completion * World.

Implicit Types (req : request) (s : state World) (e : exn).
Implicit Types (d : list (string * value)) (v : value).

Ltac run :=
  unfold chat, chat_try, try_except, bind, lift, py_get, py_first, create,
    ret, raise, extracted in *; cbn in *.

Ltac body_of req H :=
  destruct req as [body_of_req]; cbn in H; subst body_of_req.

(** *** Equations of the [try] block *)

Lemma chat_try_deserialize req s e :
  get_json req = Raise e ->
  chat_try groq_create req s = (Raise e, s).
Proof. intros H. body_of req H. reflexivity. Qed.

Lemma chat_try_not_object req s v :
  get_json req = Return v ->
  (forall d, v <> VDict d) ->
  chat_try groq_create req s = (Raise (AttributeError v "get"), s).
Proof.
  intros H Hv. body_of req H.
  destruct v; try reflexivity.
  now destruct (Hv d).
Qed.

Lemma chat_try_object req s d :
  get_json req = Return (VDict d) ->
  chat_try groq_create req s =
  if truthy (extracted d) then
    match groq_create (chat_kwargs (extracted d)) (world s) with
    | (Return c, w) =>
        match Groq.choices c with
        | first :: _ =>
            (Return (success_response (Groq.content (Groq.message first))),
             forwarded s (extracted d) w)
        | [] => (Raise IndexError, forwarded s (extracted d) w)
        end
    | (Raise e, w) => (Raise e, forwarded s (extracted d) w)
    end
  else (Return message_required, s).
Proof.
  intros H. body_of req H. run.
  destruct (truthy (dict_get d "message" (VStr ""))); cbn; [|reflexivity].
  destruct (groq_create _ (world s)) as [[c|e] w]; cbn; [|reflexivity].
  destruct (Groq.choices c); reflexivity.
Qed.

(** The [except] clause: whatever the [try] block does, [chat] keeps the
    state; a raised [e] that is an instance of [Exception] becomes the 500
    response, any other goes on to the caller. *)
Lemma chat_of_chat_try req s :
  chat groq_create req s =
  match chat_try groq_create req s with
  | (Return r, s') => (Return r, s')
  | (Raise e, s') =>
      if isinstance e "Exception" then (Return (error_response e), s')
      else (Raise e, s')
  end.
Proof. reflexivity. Qed.

(** The [try] block raises exactly on the failures listed by
    [chat_failure]. *)
Lemma chat_try_raises_iff req s e :
  fst (chat_try groq_create req s) = Raise e <-> chat_failure groq_create req s e.
Proof.
  split.
  - destruct (get_json req) as [v|e0] eqn:Hreq.
    + destruct v;
        try (rewrite (chat_try_not_object req s _ Hreq) by discriminate;
             cbn; intros [= <-]; now apply fail_not_object).
      rewrite (chat_try_object req s d Hreq).
      destruct (truthy (extracted d)) eqn:Ht; [|discriminate].
      destruct (groq_create _ (world s)) as [[c|e1] w] eqn:Hup.
      * destruct (Groq.choices c) eqn:Hc; [|discriminate].
        cbn; intros [= <-].
        apply (fail_no_choice _ _ _ d c); auto. now rewrite Hup.
      * cbn; intros [= <-].
        apply (fail_upstream _ _ _ d); auto. now rewrite Hup.
    + rewrite (chat_try_deserialize req s e0 Hreq).
      cbn; intros [= <-]. now apply fail_deserialize.
  - intros [e0 H | v H Hv | d e0 H Ht Hup | d c H Ht Hup Hc].
    + now rewrite (chat_try_deserialize req s e0 H).
    + now rewrite (chat_try_not_object req s v H Hv).
    + rewrite (chat_try_object req s d H), Ht.
      destruct (groq_create _ (world s)) as [r w]; cbn in Hup; now subst r.
    + rewrite (chat_try_object req s d H), Ht.
      destruct (groq_create _ (world s)) as [r w]; cbn in Hup; subst r.
      now rewrite Hc.
Qed.

(** *** The claims *)

(** C1, as amended.  When the body is an object with a non-empty
    (truthy) message and the upstream call returns a completion whose
    list of choices is not empty, the handler answers 200 with
    [{response: r, success: true}], [r] being the content of the first
    choice's message as the upstream gave it. *)
Theorem chat_success_returns_first_choice
    req s d (c : Groq.chat_completion) (w : World)
    (first : Groq.choice) (rest : list Groq.choice) :
  get_json req = Return (VDict d) ->
  truthy (extracted d) = true ->
  groq_create (chat_kwargs (extracted d)) (world s) = (Return c, w) ->
  Groq.choices c = first :: rest ->
  fst (chat groq_create req s) =
  Return {| body := VDict [ ("response",
                             content_value (Groq.content (Groq.message first)));
                            ("success", VBool true) ];
            status := 200 |}.
Proof.
  intros H Ht Hup Hc.
  rewrite chat_of_chat_try, (chat_try_object req s d H), Ht, Hup, Hc.
  reflexivity.
Qed.

(** C2, as amended.  When the body deserializes to an object that has
    no [message] key, or whose [message] is the empty string, the answer
    is exactly 400 with [{"error": "Message is required"}]. *)
Theorem chat_object_without_message_is_400 req s d :
  get_json req = Return (VDict d) ->
  dict_lookup d "message" = None \/ dict_lookup d "message" = Some (VStr "") ->
  fst (chat groq_create req s) =
  Return {| body := VDict [ ("error", VStr "Message is required") ];
            status := 400 |}.
Proof.
  intros H Hm.
  rewrite chat_of_chat_try, (chat_try_object req s d H).
  unfold extracted, dict_get.
  now destruct Hm as [-> | ->].
Qed.

(** C3, as amended.  On every failure of the [try] block whose exception
    is an instance of [Exception], whatever its cause (the inbound body
    does not deserialize or is not an object, the upstream call raises,
    the upstream result has no first choice), the handler answers 500
    with [{error: str(e), success: false}] for the raised [e].  The
    [AttributeError] of a body that is not an object and the [IndexError]
    of an empty list of choices are such instances.  An exception that is
    not an instance of [Exception] is not caught: [chat] raises it. *)
Theorem chat_failure_is_500 req s e :
  chat_failure groq_create req s e ->
  fst (chat_try groq_create req s) = Raise e /\
  (isinstance e "Exception" = true ->
   fst (chat groq_create req s) =
   Return {| body := VDict [ ("error", VStr (py_str e));
                             ("success", VBool false) ];
             status := 500 |}) /\
  (isinstance e "Exception" = false ->
   fst (chat groq_create req s) = Raise e) /\
  (e = IndexError \/ (exists v, e = AttributeError v "get") ->
   isinstance e "Exception" = true).
Proof.
  intros Hf. apply chat_try_raises_iff in Hf.
  split; [exact Hf|].
  rewrite chat_of_chat_try.
  destruct (chat_try groq_create req s) as [[r|e0] s']; cbn in Hf;
    [discriminate|].
  injection Hf as ->.
  repeat split.
  - now intros ->.
  - now intros ->.
  - intros [-> | [v ->]]; reflexivity.
Qed.

(** C4, as amended.  When the credential variable is set, whatever its
    value, the module loads and registers the route, and a GET
    /api/health is answered with 200 and [{"status": "healthy"}] in every
    state of the upstream, which the view leaves untouched. *)
Theorem health_check_healthy_once_started (env : environ) (key : string) s :
  os_environ_get env "GROQ_API_KEY" = Some key ->
  (exists app,
      load_module env = Return app /\
      GroqClient.api_key (client app) = key /\
      In ("/api/health", [ "GET" ], HealthView) (url_map app)) /\
  get_health env s =
  (Return {| body := VDict [ ("status", VStr "healthy") ]; status := 200 |},
   s) /\
  health_check s =
  (Return {| body := VDict [ ("status", VStr "healthy") ]; status := 200 |},
   s).
Proof.
  intros Hkey.
  unfold get_health, load_module, GroqClient.Groq, bind, lift.
  rewrite Hkey. cbn.
  split; [|split; reflexivity].
  eexists. split; [reflexivity|]. split; [reflexivity|].
  right. now left.
Qed.

(** C5, as amended.  When the message is a non-empty string [m], the
    outcome follows the upstream call made with [m].  If it returns a
    completion with a first choice, the answer is 200 with
    [success: true] and that choice's content, a string or [null], as
    [response]; if it returns an empty list of choices, the answer is 500
    with [success: false] and the text of the [IndexError]; if it raises
    an instance of [Exception], the answer is 500 with [success: false]
    and the [str] of that exception; if it raises anything else, [chat]
    raises it and there is no response. *)
Theorem chat_nonempty_string_outcome req s d (m : string) :
  get_json req = Return (VDict d) ->
  dict_lookup d "message" = Some (VStr m) ->
  m <> "" ->
  (exists c w first rest,
      groq_create (chat_kwargs (VStr m)) (world s) = (Return c, w) /\
      Groq.choices c = first :: rest /\
      fst (chat groq_create req s) =
      Return {| body := VDict [ ("response",
                                 content_value
                                   (Groq.content (Groq.message first)));
                                ("success", VBool true) ];
                status := 200 |})
  \/
  (exists c w,
      groq_create (chat_kwargs (VStr m)) (world s) = (Return c, w) /\
      Groq.choices c = [] /\
      fst (chat groq_create req s) =
      Return {| body := VDict [ ("error", VStr "list index out of range");
                                ("success", VBool false) ];
                status := 500 |})
  \/
  (exists e w,
      groq_create (chat_kwargs (VStr m)) (world s) = (Raise e, w) /\
      isinstance e "Exception" = true /\
      fst (chat groq_create req s) =
      Return {| body := VDict [ ("error", VStr (py_str e));
                                ("success", VBool false) ];
                status := 500 |})
  \/
  (exists e w,
      groq_create (chat_kwargs (VStr m)) (world s) = (Raise e, w) /\
      isinstance e "Exception" = false /\
      fst (chat groq_create req s) = Raise e).
Proof.
  intros H Hm Hne.
  assert (Hx : extracted d = VStr m) by (unfold extracted, dict_get; now rewrite Hm).
  assert (Ht : truthy (extracted d) = true).
  { rewrite Hx; cbn. destruct (String.eqb_spec m ""); [contradiction|reflexivity]. }
  rewrite chat_of_chat_try, (chat_try_object req s d H), Ht, Hx.
  destruct (groq_create _ (world s)) as [[c|e] w].
  - destruct (Groq.choices c) as [|first rest] eqn:Hc.
    + right; left. exists c, w. auto.
    + left. exists c, w, first, rest. auto.
  - destruct (isinstance e "Exception") eqn:He.
    + right; right; left. exists e, w. auto.
    + right; right; right. exists e, w. auto.
Qed.

(** C6.  When the request passes validation, the handler issues exactly
    one [create] call, whatever the upstream then does: its keyword
    arguments are [messages], a list of the single message
    [{"role": "user", "content": m}] with [m] the caller's message, and
    [model], the fixed identifier; there is nothing else among them. *)
Theorem chat_issues_one_call req s d :
  get_json req = Return (VDict d) ->
  truthy (extracted d) = true ->
  calls (snd (chat groq_create req s)) =
  (calls s ++
    [ [ ("messages",
         VList [ VDict [ ("role", VStr "user");
                         ("content", extracted d) ] ]);
        ("model", VStr "llama-3.3-70b-versatile") ] ])%list.
Proof.
  intros H Ht.
  rewrite chat_of_chat_try, (chat_try_object req s d H), Ht.
  destruct (groq_create _ (world s)) as [[c|e] w]; cbn.
  - destruct (Groq.choices c); reflexivity.
  - destruct (isinstance e "Exception"); reflexivity.
Qed.

(** C7.  When the extracted message is missing or empty (falsy in
    general), the handler answers 400 and leaves the state as it was: the
    log of outbound calls gains nothing and the upstream world is
    untouched. *)
Theorem chat_rejection_makes_no_call req s d :
  get_json req = Return (VDict d) ->
  truthy (extracted d) = false ->
  (exists r, fst (chat groq_create req s) = Return r /\ status r = 400) /\
  calls (snd (chat groq_create req s)) = calls s /\
  snd (chat groq_create req s) = s.
Proof.
  intros H Ht.
  rewrite chat_of_chat_try, (chat_try_object req s d H), Ht; cbn.
  repeat split. now exists message_required.
Qed.

(** What the [try] block returns is one of the two responses it builds. *)
Lemma chat_try_returns req s (r : response) (s' : state World) :
  chat_try groq_create req s = (Return r, s') ->
  r = message_required \/ exists c, r = success_response c.
Proof.
  intros Htry.
  destruct (get_json req) as [v|e] eqn:Hreq.
  - destruct v;
      try (rewrite (chat_try_not_object req s _ Hreq) in Htry by discriminate;
           discriminate).
    rewrite (chat_try_object req s d Hreq) in Htry.
    destruct (truthy (extracted d)).
    + destruct (groq_create _ (world s)) as [[c|e] w]; [|discriminate].
      destruct (Groq.choices c); [discriminate|].
      injection Htry as <- _. eauto.
    + injection Htry as <- _. now left.
  - rewrite (chat_try_deserialize req s e Hreq) in Htry. discriminate.
Qed.

(** An exception that is not an instance of [Exception] can only come
    from outside the handler: from [get_json] or from the upstream
    call. *)
Lemma chat_failure_not_Exception req s e :
  chat_failure groq_create req s e ->
  isinstance e "Exception" = false ->
  get_json req = Raise e \/
  (exists d, get_json req = Return (VDict d) /\
             truthy (extracted d) = true /\
             fst (groq_create (chat_kwargs (extracted d)) (world s)) = Raise e).
Proof.
  intros [e0 H | v H Hv | d e0 H Ht Hup | d c H Ht Hup Hc] He.
  - now left.
  - discriminate.
  - right. now exists d.
  - discriminate.
Qed.

(** C8, as amended.  A run of [chat] in which the upstream call returns
    or raises ends in one of two ways.  Either it returns a response,
    whose body is a JSON object and whose status is 200, 400 or 500; or
    it raises an exception that is not an instance of [Exception], which
    [get_json] or the upstream call raised and the [except] clause does
    not catch.  Every exception that is an instance of [Exception] is
    caught: when no failure of the [try] block is of the other kind, the
    run returns a response. *)
Theorem chat_responds_or_propagates req s :
  ((exists (r : response) (s' : state World),
       chat groq_create req s = (Return r, s') /\
       (exists fields, body r = VDict fields) /\
       (status r = 200 \/ status r = 400 \/ status r = 500))
   \/
   (exists e (s' : state World),
       chat groq_create req s = (Raise e, s') /\
       isinstance e "Exception" = false /\
       (get_json req = Raise e \/
        exists d, get_json req = Return (VDict d) /\
                  truthy (extracted d) = true /\
                  fst (groq_create (chat_kwargs (extracted d)) (world s))
                  = Raise e)))
  /\
  ((forall e, chat_failure groq_create req s e ->
              isinstance e "Exception" = true) ->
   exists (r : response) (s' : state World),
     chat groq_create req s = (Return r, s')).
Proof.
  rewrite chat_of_chat_try.
  destruct (chat_try groq_create req s) as [[r|e] s'] eqn:Htry.
  - split; [left|intros _]; exists r, s'; [|reflexivity].
    split; [reflexivity|].
    destruct (chat_try_returns req s r s' Htry) as [-> | [c ->]]; cbn;
      (split; [eexists; reflexivity|auto]).
  - assert (Hf : chat_failure groq_create req s e)
      by (apply chat_try_raises_iff; now rewrite Htry).
    destruct (isinstance e "Exception") eqn:He.
    + split; [left|intros _]; exists (error_response e), s'; [|reflexivity].
      cbn. split; [reflexivity|]. split; [eexists; reflexivity|auto].
    + split.
      * right. exists e, s'. split; [reflexivity|]. split; [exact He|].
        now apply chat_failure_not_Exception.
      * intros Hall. rewrite (Hall e Hf) in He. discriminate.
Qed.

(** C9, as amended.  Every response of [chat] has one of three shapes:
    [{response: c, success: true}] with status 200, [c] a string or
    [null]; [{error: m, success: false}] with status 500; or the
    rejection [{error: "Message is required"}] with status 400, which has
    no [success] field.  Where [success] is present it tells the shape:
    it is [true] exactly when [response] is.  A run that gives no
    response raised an exception that is not an instance of
    [Exception]. *)
Theorem chat_response_has_shape req s :
  (forall r : response,
      fst (chat groq_create req s) = Return r ->
      chat_shape r /\
      (field r "success" = Some (VBool true) <-> field r "response" <> None) /\
      (field r "success" = Some (VBool false) -> field r "error" <> None))
  /\
  ((exists r : response, fst (chat groq_create req s) = Return r) \/
   (exists e, fst (chat groq_create req s) = Raise e /\
              isinstance e "Exception" = false)).
Proof.
  assert (Hshape : forall r, chat_shape r ->
    chat_shape r /\
    (field r "success" = Some (VBool true) <-> field r "response" <> None) /\
    (field r "success" = Some (VBool false) -> field r "error" <> None)).
  { intros r Hr. split; [exact Hr|].
    destruct Hr; cbn; repeat split; try discriminate; try congruence. }
  rewrite chat_of_chat_try.
  destruct (chat_try groq_create req s) as [[r|e] s'] eqn:Htry.
  - split; [|left; now exists r].
    cbn. intros r' [= <-]. apply Hshape.
    destruct (chat_try_returns req s r s' Htry) as [-> | [c ->]].
    + apply shape_rejection.
    + apply shape_success.
  - destruct (isinstance e "Exception") eqn:He.
    + split; [|left; now exists (error_response e)].
      cbn. intros r' [= <-]. apply Hshape, shape_failure.
    + split; [discriminate|]. right. now exists e.
Qed.

(** C10.  The check on line 18 is the truth value of the extracted
    message, whatever its type.  For a body that is an object: the falsy
    values are [None], [False], zero, and the empty string, list and
    dict, the empty string also standing for an absent key; a falsy
    message is answered with 400 [{"error": "Message is required"}] and
    nothing is forwarded; a truthy one, string or not, goes to the
    upstream call as the [content] of the single message. *)
Theorem chat_validation_is_truthiness req s d :
  get_json req = Return (VDict d) ->
  (dict_lookup d "message" = None -> extracted d = VStr "") /\
  (truthy (extracted d) = false <->
     extracted d = VNone \/ extracted d = VBool false \/
     extracted d = VInt 0 \/
     (exists sign, extracted d = VFloat (S754_zero sign)) \/
     extracted d = VStr "" \/ extracted d = VList [] \/
     extracted d = VDict []) /\
  (truthy (extracted d) = false ->
     chat groq_create req s =
     (Return {| body := VDict [ ("error", VStr "Message is required") ];
                status := 400 |}, s)) /\
  (truthy (extracted d) = true ->
     calls (snd (chat groq_create req s)) =
     (calls s ++
       [ [ ("messages",
            VList [ VDict [ ("role", VStr "user");
                            ("content", extracted d) ] ]);
           ("model", VStr "llama-3.3-70b-versatile") ] ])%list).
Proof.
  intros H. split; [|split; [|split]].
  - unfold extracted, dict_get. now intros ->.
  - apply truthy_false_iff.
  - intros Ht.
    rewrite chat_of_chat_try, (chat_try_object req s d H), Ht. reflexivity.
  - intros Ht.
    rewrite chat_of_chat_try, (chat_try_object req s d H), Ht.
    destruct (groq_create _ (world s)) as [[c|e] w]; cbn.
    + destruct (Groq.choices c); reflexivity.
    + destruct (isinstance e "Exception"); reflexivity.
Qed.

End Properties.

(** ** The handler on concrete requests *)

Module Runs.

Import Samples.

(** [{"message": "Hello"}] against a healthy upstream. *)
Lemma chat_success_returns_first_choice_witness :
  fst (chat upstream_ok req_hello s0) =
  Return {| body := VDict [ ("response", VStr "Hi there!");
                            ("success", VBool true) ];
            status := 200 |}.
Proof.
  apply (chat_success_returns_first_choice upstream_ok req_hello s0
           [ ("message", VStr "Hello") ] (completion (Some "Hi there!")) 1%nat
           {| Groq.message := {| Groq.content := Some "Hi there!" |} |} []);
    reflexivity.
Defined.

(** C1 as stated fails: with the message ["Hello"] the upstream call
    returns normally, with an empty list of choices, and the answer is the
    500 of the [IndexError], not a 200. *)
Lemma chat_success_counterexample :
  get_json req_hello = Return (VDict [ ("message", VStr "Hello") ]) /\
  truthy (VStr "Hello") = true /\
  upstream_no_choices (chat_kwargs (VStr "Hello")) (world s0) =
    (Return {| Groq.choices := [] |}, 1%nat) /\
  fst (chat upstream_no_choices req_hello s0) =
    Return {| body := VDict [ ("error", VStr "list index out of range");
                              ("success", VBool false) ];
              status := 500 |}.
Proof. repeat split. Qed.

(** C2 as stated fails: the body [[]] has no [message] field, and so has
    a body that does not parse, yet both are answered with 500 by the
    catch-all, not with the 400 rejection. *)
Lemma chat_absent_message_counterexample :
  message_absent_or_empty req_array = true /\
  fst (chat upstream_ok req_array s0) =
    Return {| body := VDict [ ("error",
                               VStr "'list' object has no attribute 'get'");
                              ("success", VBool false) ];
              status := 500 |} /\
  fst (chat upstream_ok req_array s0) <>
    Return {| body := VDict [ ("error", VStr "Message is required") ];
              status := 400 |} /\
  message_absent_or_empty req_malformed = true /\
  fst (chat upstream_ok req_malformed s0) =
    Return {| body := VDict [ ("error", VStr (py_str bad_request));
                              ("success", VBool false) ];
              status := 500 |}.
Proof. repeat split; try reflexivity. discriminate. Qed.

(** [{}] and [{"message": ""}] *)
Lemma chat_object_without_message_is_400_witness :
  fst (chat upstream_ok req_empty_object s0) =
    Return {| body := VDict [ ("error", VStr "Message is required") ];
              status := 400 |} /\
  fst (chat upstream_ok req_empty_message s0) =
    Return {| body := VDict [ ("error", VStr "Message is required") ];
              status := 400 |}.
Proof.
  split.
  - apply (chat_object_without_message_is_400 upstream_ok req_empty_object
             s0 []); [reflexivity|left; reflexivity].
  - apply (chat_object_without_message_is_400 upstream_ok req_empty_message
             s0 [ ("message", VStr "") ]); [reflexivity|right; reflexivity].
Defined.

(** C3 as stated fails: the upstream call is interrupted from the
    keyboard, which is a failure of the [try] block, and the handler
    gives no 500: [KeyboardInterrupt] is not an instance of [Exception]
    and leaves [chat] uncaught. *)
Lemma chat_failure_counterexample :
  chat_failure upstream_interrupted req_hello s0 KeyboardInterrupt /\
  isinstance KeyboardInterrupt "Exception" = false /\
  fst (chat upstream_interrupted req_hello s0) = Raise KeyboardInterrupt /\
  (forall r, fst (chat upstream_interrupted req_hello s0) <> Return r).
Proof.
  split.
  - apply (fail_upstream _ _ _ [ ("message", VStr "Hello") ]); reflexivity.
  - repeat split. discriminate.
Qed.

(** [{"message": "Hello"}] while the upstream refuses the credential. *)
Lemma chat_failure_is_500_witness :
  fst (chat upstream_unauthorized req_hello s0) =
  Return {| body := VDict [ ("error",
                             VStr "Error code: 401 - Invalid API Key");
                            ("success", VBool false) ];
            status := 500 |}.
Proof.
  destruct (chat_failure_is_500 upstream_unauthorized req_hello s0
              unauthorized) as (_ & Hcaught & _).
  - apply (fail_upstream _ _ _ [ ("message", VStr "Hello") ]); reflexivity.
  - apply Hcaught. reflexivity.
Defined.

(** C4 as stated fails: without the credential variable the constructor
    on line 10 raises while the module is imported, so the process never
    has the route and a GET /api/health gets no 200. *)
Lemma health_check_counterexample :
  os_environ_get env_no_key "GROQ_API_KEY" = None /\
  load_module env_no_key = Raise GroqClient.GroqError /\
  fst (get_health env_no_key s0) = Raise GroqClient.GroqError /\
  (forall r, fst (get_health env_no_key s0) <> Return r).
Proof. repeat split. discriminate. Qed.

(** A credential the service would refuse: the process starts and the
    health check answers. *)
Lemma health_check_healthy_once_started_witness :
  get_health env_bad_key s0 =
  (Return {| body := VDict [ ("status", VStr "healthy") ]; status := 200 |},
   s0).
Proof.
  destruct (health_check_healthy_once_started env_bad_key "not-a-key" s0)
    as (_ & Hget & _).
  - reflexivity.
  - exact Hget.
Defined.

(** C5 as stated fails: with the message ["Hello"], an upstream whose
    first choice has no content gives a 200 whose [response] is [null],
    not a string; an upstream raising an exception with an empty [str]
    gives a 500 whose [error] is empty; and an upstream call interrupted
    from the keyboard gives no response at all. *)
Lemma chat_nonempty_string_shape_counterexample :
  message_nonempty_string req_hello = true /\
  fst (chat upstream_no_content req_hello s0) =
    Return {| body := VDict [ ("response", VNone); ("success", VBool true) ];
              status := 200 |} /\
  ok_or_error_shape
    {| body := VDict [ ("response", VNone); ("success", VBool true) ];
       status := 200 |} = false /\
  fst (chat upstream_silent req_hello s0) =
    Return {| body := VDict [ ("error", VStr ""); ("success", VBool false) ];
              status := 500 |} /\
  ok_or_error_shape
    {| body := VDict [ ("error", VStr ""); ("success", VBool false) ];
       status := 500 |} = false /\
  fst (chat upstream_interrupted req_hello s0) = Raise KeyboardInterrupt.
Proof. repeat split. Qed.

(** [{"message": "Hello"}] with an upstream whose first choice has no
    content: the first of the four outcomes, with a [null] response. *)
Lemma chat_nonempty_string_outcome_witness :
  (exists c w first rest,
      upstream_no_content (chat_kwargs (VStr "Hello")) (world s0)
      = (Return c, w) /\
      Groq.choices c = first :: rest /\
      fst (chat upstream_no_content req_hello s0) =
      Return {| body := VDict [ ("response",
                                 content_value
                                   (Groq.content (Groq.message first)));
                                ("success", VBool true) ];
                status := 200 |})
  \/
  (exists c w,
      upstream_no_content (chat_kwargs (VStr "Hello")) (world s0)
      = (Return c, w) /\
      Groq.choices c = [] /\
      fst (chat upstream_no_content req_hello s0) =
      Return {| body := VDict [ ("error", VStr "list index out of range");
                                ("success", VBool false) ];
                status := 500 |})
  \/
  (exists e w,
      upstream_no_content (chat_kwargs (VStr "Hello")) (world s0)
      = (Raise e, w) /\
      isinstance e "Exception" = true /\
      fst (chat upstream_no_content req_hello s0) =
      Return {| body := VDict [ ("error", VStr (py_str e));
                                ("success", VBool false) ];
                status := 500 |})
  \/
  (exists e w,
      upstream_no_content (chat_kwargs (VStr "Hello")) (world s0)
      = (Raise e, w) /\
      isinstance e "Exception" = false /\
      fst (chat upstream_no_content req_hello s0) = Raise e).
Proof.
  apply (chat_nonempty_string_outcome upstream_no_content req_hello s0
           [ ("message", VStr "Hello") ] "Hello");
    [reflexivity|reflexivity|discriminate].
Defined.

(** [{"message": "Hello"}]: one call, whatever the upstream answers. *)
Lemma chat_issues_one_call_witness :
  calls (snd (chat upstream_unauthorized req_hello s0)) =
  [ [ ("messages",
       VList [ VDict [ ("role", VStr "user"); ("content", VStr "Hello") ] ]);
      ("model", VStr "llama-3.3-70b-versatile") ] ].
Proof.
  apply (chat_issues_one_call upstream_unauthorized req_hello s0
           [ ("message", VStr "Hello") ]); reflexivity.
Defined.

(** [{"message": ""}]: rejected, and the upstream has served nothing. *)
Lemma chat_rejection_makes_no_call_witness :
  (exists r, fst (chat upstream_ok req_empty_message s0) = Return r /\
             status r = 400) /\
  calls (snd (chat upstream_ok req_empty_message s0)) = [] /\
  snd (chat upstream_ok req_empty_message s0) = s0.
Proof.
  apply (chat_rejection_makes_no_call upstream_ok req_empty_message s0
           [ ("message", VStr "") ]); reflexivity.
Defined.

(** C8 as stated fails: the worker is told to exit while the upstream
    call waits; [SystemExit] is not an instance of [Exception], so [chat]
    ends in that exception, after the call was made, and produces no
    body and no status. *)
Lemma chat_always_responds_counterexample :
  isinstance SystemExit "Exception" = false /\
  chat upstream_exiting req_hello s0 =
    (Raise SystemExit,
     {| world := 1%nat; calls := [ chat_kwargs (VStr "Hello") ] |}) /\
  (forall r, fst (chat upstream_exiting req_hello s0) <> Return r).
Proof. repeat split. discriminate. Qed.

(** An upstream that refuses the credential raises an instance of
    [Exception]: the run returns a response. *)
Lemma chat_responds_or_propagates_witness :
  exists (r : response) (s' : state nat),
    chat upstream_unauthorized req_hello s0 = (Return r, s').
Proof.
  apply (chat_responds_or_propagates upstream_unauthorized req_hello s0).
  intros e Hf.
  apply chat_try_raises_iff in Hf.
  cbn in Hf. now injection Hf as <-.
Defined.

(** The response to [{}] has the shape of the rejection. *)
Lemma chat_response_has_shape_witness :
  chat_shape {| body := VDict [ ("error", VStr "Message is required") ];
                status := 400 |}.
Proof.
  apply (chat_response_has_shape upstream_ok req_empty_object s0).
  reflexivity.
Defined.

(** C9 as stated fails: the rejection of [{}] has no [success] field,
    and the success body of an upstream without content has a [null]
    [response]; neither is one of the two shapes. *)
Lemma chat_two_shapes_counterexample :
  fst (chat upstream_ok req_empty_object s0) =
    Return {| body := VDict [ ("error", VStr "Message is required") ];
              status := 400 |} /\
  field {| body := VDict [ ("error", VStr "Message is required") ];
           status := 400 |} "success" = None /\
  chat_response_shape
    {| body := VDict [ ("error", VStr "Message is required") ];
       status := 400 |} = false /\
  fst (chat upstream_no_content req_hello s0) =
    Return {| body := VDict [ ("response", VNone); ("success", VBool true) ];
              status := 200 |} /\
  chat_response_shape
    {| body := VDict [ ("response", VNone); ("success", VBool true) ];
       status := 200 |} = false.
Proof. repeat split. Qed.

(** [{"message": 42}]: the number passes the check and is forwarded as
    the content. *)
Lemma chat_validation_is_truthiness_witness :
  truthy (VInt 42) = true /\
  calls (snd (chat upstream_ok req_number s0)) =
  [ [ ("messages",
       VList [ VDict [ ("role", VStr "user"); ("content", VInt 42) ] ]);
      ("model", VStr "llama-3.3-70b-versatile") ] ].
Proof.
  split; [reflexivity|].
  apply (chat_validation_is_truthiness upstream_ok req_number s0
           [ ("message", VInt 42) ]); reflexivity.
Defined.

End Runs.

(** ** Outcomes, state and composition *)

Section Outcomes.

Context {World : Type}.

Implicit Types (groq_create : Groq.kwargs -> World ->
                              py_result Groq.chat_completion * World).
Implicit Types (req : request) (s : state World) (e : exn).
Implicit Types (d : list (string * value)) (v : value).

(** *** The two ways a run goes *)

(** Nothing is forwarded: the outcome is decided by the inbound body
    alone and the state stays as it was. *)
Lemma chat_unforwarded groq_create req s :
  forwarded_message req = None ->
  chat groq_create req s =
  (match get_json req with
   | Return (VDict _) => Return message_required
   | Return v => Return (error_response (AttributeError v "get"))
   | Raise e =>
       if isinstance e "Exception" then Return (error_response e)
       else Raise e
   end, s).
Proof.
  unfold forwarded_message. intros Hf.
  rewrite chat_of_chat_try.
  destruct (get_json req) as [v|e] eqn:Hreq.
  - destruct v;
      try (rewrite (chat_try_not_object groq_create req s _ Hreq) by discriminate;
           reflexivity).
    rewrite (chat_try_object groq_create req s d Hreq).
    destruct (truthy (extracted d)); [discriminate|reflexivity].
  - rewrite (chat_try_deserialize groq_create req s e Hreq).
    now destruct (isinstance e "Exception").
Qed.

(** The message [v] is forwarded: the outcome is decided by what the
    upstream does with it. *)
Lemma chat_forwarded groq_create req s v :
  forwarded_message req = Some v ->
  chat groq_create req s =
  match groq_create (chat_kwargs v) (world s) with
  | (Return c, w) =>
      match Groq.choices c with
      | first :: _ =>
          (Return (success_response (Groq.content (Groq.message first))),
           forwarded s v w)
      | [] => (Return (error_response IndexError), forwarded s v w)
      end
  | (Raise e, w) =>
      (if isinstance e "Exception" then Return (error_response e)
       else Raise e,
       forwarded s v w)
  end.
Proof.
  unfold forwarded_message. intros Hf.
  destruct (get_json req) as [[| | | | | |d]|e] eqn:Hreq; try discriminate.
  destruct (truthy (extracted d)) eqn:Ht; [|discriminate].
  injection Hf as <-.
  rewrite chat_of_chat_try, (chat_try_object groq_create req s d Hreq), Ht.
  destruct (groq_create _ (world s)) as [[c|e] w].
  - destruct (Groq.choices c); reflexivity.
  - now destruct (isinstance e "Exception").
Qed.

Lemma forwarded_message_Some req v :
  forwarded_message req = Some v <->
  exists d, get_json req = Return (VDict d) /\
            truthy (extracted d) = true /\ v = extracted d.
Proof.
  unfold forwarded_message. split.
  - destruct (get_json req) as [[| | | | | |d]|e]; try discriminate.
    destruct (truthy (extracted d)) eqn:Ht; [|discriminate].
    intros [= <-]. now exists d.
  - intros (d & -> & -> & ->). reflexivity.
Qed.

(** The log after a run, whether the run returns or raises. *)
Lemma chat_log_step groq_create req s :
  calls (snd (chat groq_create req s)) =
  (calls s ++ map chat_kwargs match forwarded_message req with
                              | Some v => [ v ]
                              | None => []
                              end)%list.
Proof.
  destruct (forwarded_message req) as [v|] eqn:Hf.
  - rewrite (chat_forwarded groq_create req s v Hf).
    destruct (groq_create _ (world s)) as [[c|e] w];
      [destruct (Groq.choices c)|]; reflexivity.
  - rewrite (chat_unforwarded groq_create req s Hf). cbn.
    now rewrite app_nil_r.
Qed.

(** A response and a claimed status that do not fit. *)
Ltac status_clash Hr Hst :=
  cbn in Hr; try discriminate Hr; injection Hr as <-; discriminate Hst.

(** *** Which status, and when *)

(** The answer is 400 exactly when the body is an object whose extracted
    message is falsy. *)
Theorem chat_status_400_iff groq_create req s :
  (exists r, fst (chat groq_create req s) = Return r /\ status r = 400) <->
  (exists d, get_json req = Return (VDict d) /\ truthy (extracted d) = false).
Proof.
  split.
  - intros (r & Hr & Hst).
    destruct (forwarded_message req) as [v|] eqn:Hf.
    + rewrite (chat_forwarded groq_create req s v Hf) in Hr.
      destruct (groq_create _ (world s)) as [[c|e] w];
        [destruct (Groq.choices c)|destruct (isinstance e "Exception")];
        status_clash Hr Hst.
    + rewrite (chat_unforwarded groq_create req s Hf) in Hr.
      unfold forwarded_message in Hf.
      destruct (get_json req) as [[| | | | | |d]|e];
        try status_clash Hr Hst.
      * exists d. split; [reflexivity|].
        now destruct (truthy (extracted d)).
      * destruct (isinstance e "Exception"); status_clash Hr Hst.
  - intros (d & Hreq & Ht).
    exists message_required. split; [|reflexivity].
    rewrite chat_unforwarded.
    + now rewrite Hreq.
    + unfold forwarded_message. now rewrite Hreq, Ht.
Qed.

(** The answer is 200 exactly when the body is an object with a truthy
    message and the upstream call made with it returns a completion that
    has a first choice. *)
Theorem chat_status_200_iff groq_create req s :
  (exists r, fst (chat groq_create req s) = Return r /\ status r = 200) <->
  (exists d c first rest,
      get_json req = Return (VDict d) /\
      truthy (extracted d) = true /\
      fst (groq_create (chat_kwargs (extracted d)) (world s)) = Return c /\
      Groq.choices c = first :: rest).
Proof.
  split.
  - intros (r & Hr & Hst).
    destruct (forwarded_message req) as [v|] eqn:Hf.
    + pose proof Hf as Hv. apply forwarded_message_Some in Hv.
      destruct Hv as (d & Hreq & Ht & ->).
      rewrite (chat_forwarded groq_create req s _ Hf) in Hr.
      destruct (groq_create _ (world s)) as [[c|e] w] eqn:Hup.
      * destruct (Groq.choices c) as [|first rest] eqn:Hc.
        -- status_clash Hr Hst.
        -- exists d, c, first, rest. rewrite Hup. auto.
      * destruct (isinstance e "Exception"); status_clash Hr Hst.
    + rewrite (chat_unforwarded groq_create req s Hf) in Hr.
      destruct (get_json req) as [[| | | | | |d]|e];
        try status_clash Hr Hst.
      destruct (isinstance e "Exception"); status_clash Hr Hst.
  - intros (d & c & first & rest & Hreq & Ht & Hup & Hc).
    exists (success_response (Groq.content (Groq.message first))).
    split; [|reflexivity].
    rewrite (chat_forwarded groq_create req s (extracted d)).
    + destruct (groq_create _ (world s)) as [r w]. cbn in Hup. subst r.
      now rewrite Hc.
    + apply forwarded_message_Some. now exists d.
Qed.

(** The answer is 500 exactly when the [try] block fails, in one of the
    ways of [chat_failure], with an exception that is an instance of
    [Exception]; a failure with any other exception gives no answer. *)
Theorem chat_status_500_iff groq_create req s :
  (exists r, fst (chat groq_create req s) = Return r /\ status r = 500) <->
  (exists e, chat_failure groq_create req s e /\
             isinstance e "Exception" = true).
Proof.
  rewrite chat_of_chat_try. split.
  - intros (r & Hr & Hst).
    destruct (chat_try groq_create req s) as [[r'|e] s'] eqn:Htry.
    + cbn in Hr. injection Hr as ->.
      destruct (chat_try_returns groq_create req s r s' Htry) as [-> | [c ->]];
        discriminate.
    + exists e. split.
      * apply chat_try_raises_iff. now rewrite Htry.
      * destruct (isinstance e "Exception"); [reflexivity|discriminate].
  - intros (e & He & Hcls). apply chat_try_raises_iff in He.
    destruct (chat_try groq_create req s) as [[r'|e'] s']; cbn in He.
    + discriminate.
    + injection He as ->. rewrite Hcls.
      exists (error_response e). split; reflexivity.
Qed.

(** *** What a run leaves behind *)

(** A run appends to the log the one call made with the forwarded
    message and moves the upstream world by that call; when nothing is
    forwarded, log and world are as before.  Earlier entries of the log are
    never touched, and no run adds a second call. *)
Theorem chat_final_state groq_create req s :
  snd (chat groq_create req s) =
  match forwarded_message req with
  | Some v =>
      {| world := snd (groq_create (chat_kwargs v) (world s));
         calls := calls s ++ [ chat_kwargs v ] |}
  | None => s
  end.
Proof.
  destruct (forwarded_message req) as [v|] eqn:Hf.
  - rewrite (chat_forwarded groq_create req s v Hf).
    destruct (groq_create _ (world s)) as [[c|e] w]; [|reflexivity].
    destruct (Groq.choices c); reflexivity.
  - now rewrite (chat_unforwarded groq_create req s Hf).
Qed.

(** *** What the answer does not depend on *)

(** Keys of the body other than ['message'] are ignored: two object
    bodies with the same ['message'] entry (or both without one) get the
    same answer and leave the same state. *)
Theorem chat_ignores_other_fields groq_create req1 req2 s d1 d2 :
  get_json req1 = Return (VDict d1) ->
  get_json req2 = Return (VDict d2) ->
  dict_lookup d1 "message" = dict_lookup d2 "message" ->
  chat groq_create req1 s = chat groq_create req2 s.
Proof.
  intros H1 H2 Hm.
  assert (Hx : extracted d1 = extracted d2)
    by (unfold extracted, dict_get; now rewrite Hm).
  rewrite !chat_of_chat_try.
  rewrite (chat_try_object groq_create req1 s d1 H1).
  rewrite (chat_try_object groq_create req2 s d2 H2).
  now rewrite Hx.
Qed.

(** Of the upstream result only the first choice is read: two upstreams
    whose completions for the forwarded message start with the same choice
    (or are both empty) lead to the same answer. *)
Theorem chat_reads_first_choice_only
    groq_create1 groq_create2 req s v (c1 c2 : Groq.chat_completion) :
  forwarded_message req = Some v ->
  fst (groq_create1 (chat_kwargs v) (world s)) = Return c1 ->
  fst (groq_create2 (chat_kwargs v) (world s)) = Return c2 ->
  hd_error (Groq.choices c1) = hd_error (Groq.choices c2) ->
  fst (chat groq_create1 req s) = fst (chat groq_create2 req s).
Proof.
  intros Hf H1 H2 Hhd.
  rewrite (chat_forwarded groq_create1 req s v Hf).
  rewrite (chat_forwarded groq_create2 req s v Hf).
  destruct (groq_create1 _ (world s)) as [r1 w1]; cbn in H1; subst r1.
  destruct (groq_create2 _ (world s)) as [r2 w2]; cbn in H2; subst r2.
  destruct (Groq.choices c1) as [|x1 l1], (Groq.choices c2) as [|x2 l2];
    cbn in Hhd; try discriminate; [reflexivity|].
  now injection Hhd as ->.
Qed.

(** When nothing is forwarded the run does not depend on the upstream at
    all: any two upstreams give the same answer and the same, unchanged,
    state. *)
Theorem chat_unforwarded_ignores_upstream groq_create1 groq_create2 req s :
  forwarded_message req = None ->
  chat groq_create1 req s = chat groq_create2 req s /\
  snd (chat groq_create1 req s) = s.
Proof.
  intros Hf.
  rewrite (chat_unforwarded groq_create1 req s Hf).
  rewrite (chat_unforwarded groq_create2 req s Hf).
  split; reflexivity.
Qed.

(** *** Successive requests *)

Lemma chat_each_cons groq_create req (rest : list request) s :
  chat_each groq_create (req :: rest) s =
  match chat groq_create req s with
  | (Return r, s1) =>
      match chat_each groq_create rest s1 with
      | (Return rs, s2) => (Return (r :: rs), s2)
      | (Raise e, s2) => (Raise e, s2)
      end
  | (Raise e, s1) => (Raise e, s1)
  end.
Proof. reflexivity. Qed.

(** A list of requests handled to its end. *)
Lemma chat_each_returned groq_create (reqs : list request) :
  forall s (rs : list response),
    fst (chat_each groq_create reqs s) = Return rs ->
    length rs = length reqs /\
    calls (snd (chat_each groq_create reqs s)) =
    (calls s ++
      map chat_kwargs
        (flat_map (fun req => match forwarded_message req with
                              | Some v => [ v ]
                              | None => []
                              end) reqs))%list.
Proof.
  induction reqs as [|req rest IH]; intros s rs.
  - cbn. intros [= <-]. now rewrite app_nil_r.
  - rewrite chat_each_cons.
    pose proof (chat_log_step groq_create req s) as Hlog.
    destruct (chat groq_create req s) as [[r|e] s1]; [|discriminate].
    cbn in Hlog.
    specialize (IH s1).
    destruct (chat_each groq_create rest s1) as [[rs'|e] s2]; [|discriminate].
    cbn. intros [= <-].
    destruct (IH rs' eq_refl) as (Hlen & Hcalls). cbn in Hcalls.
    split; [cbn; now rewrite Hlen|].
    rewrite Hcalls, Hlog, map_app, app_assoc. reflexivity.
Qed.

(** With bodies and an upstream that raise instances of [Exception]
    only, every run returns. *)
Lemma chat_returns groq_create req s :
  (forall e, get_json req = Raise e -> isinstance e "Exception" = true) ->
  (forall kw (w : World) e,
      fst (groq_create kw w) = Raise e -> isinstance e "Exception" = true) ->
  exists (r : response) (s1 : state World),
    chat groq_create req s = (Return r, s1).
Proof.
  intros Hreq Hup.
  destruct (forwarded_message req) as [v|] eqn:Hf.
  - rewrite (chat_forwarded groq_create req s v Hf).
    pose proof (Hup (chat_kwargs v) (world s)) as Hupv.
    destruct (groq_create _ (world s)) as [[c|e] w].
    + destruct (Groq.choices c); eauto.
    + rewrite (Hupv e eq_refl). eauto.
  - rewrite (chat_unforwarded groq_create req s Hf).
    destruct (get_json req) as [[| | | | | |d]|e]; eauto.
    rewrite (Hreq e eq_refl). eauto.
Qed.

(** Requests handled one after the other.  When the list is handled to
    its end there is one response per request, and the log has gained
    exactly the calls made with the forwarded messages, one per forwarded
    request and in the order of the requests: nothing is retried, skipped
    or answered from an earlier run.  The list is handled to its end
    whenever the bodies and the upstream raise instances of [Exception]
    only. *)
Theorem chat_each_log groq_create (reqs : list request) s :
  (forall rs : list response,
      fst (chat_each groq_create reqs s) = Return rs ->
      length rs = length reqs /\
      calls (snd (chat_each groq_create reqs s)) =
      (calls s ++
        map chat_kwargs
          (flat_map (fun req => match forwarded_message req with
                                | Some v => [ v ]
                                | None => []
                                end) reqs))%list)
  /\
  ((forall req e, In req reqs -> get_json req = Raise e ->
                  isinstance e "Exception" = true) ->
   (forall kw (w : World) e,
       fst (groq_create kw w) = Raise e -> isinstance e "Exception" = true) ->
   exists rs : list response, fst (chat_each groq_create reqs s) = Return rs).
Proof.
  split; [apply chat_each_returned|].
  revert s. induction reqs as [|req rest IH]; intros s Hreqs Hup.
  - now exists [].
  - rewrite chat_each_cons.
    destruct (chat_returns groq_create req s) as (r & s1 & ->).
    + intros e. apply Hreqs. now left.
    + exact Hup.
    + destruct (IH s1) as (rs & Hrs).
      * intros req' e Hin. apply Hreqs. now right.
      * exact Hup.
      * destruct (chat_each groq_create rest s1) as [res s2].
        cbn in Hrs. subst res. now exists (r :: rs).
Qed.

(** Every call the handler adds to the log has the same form: the fixed
    model, and one message of role ["user"] whose content is truthy.  If
    the log starts with calls of that form only, it still holds calls of
    that form only after any list of requests: an empty message never
    reaches the upstream. *)
Theorem chat_each_calls_wellformed groq_create (reqs : list request) s :
  Forall (fun kw => exists v, kw = chat_kwargs v /\ truthy v = true) (calls s) ->
  Forall (fun kw => exists v, kw = chat_kwargs v /\ truthy v = true)
         (calls (snd (chat_each groq_create reqs s))).
Proof.
  revert s. induction reqs as [|req rest IH]; intros s Hs.
  - exact Hs.
  - rewrite chat_each_cons.
    pose proof (chat_log_step groq_create req s) as Hlog.
    destruct (chat groq_create req s) as [res s1].
    cbn in Hlog.
    assert (Hs1 : Forall (fun kw => exists v, kw = chat_kwargs v /\ truthy v = true)
                         (calls s1)).
    { rewrite Hlog. apply Forall_app. split; [exact Hs|].
      destruct (forwarded_message req) as [v|] eqn:Hf; [|constructor].
      apply forwarded_message_Some in Hf. destruct Hf as (d & _ & Ht & ->).
      constructor; [|constructor]. now exists (extracted d). }
    specialize (IH s1 Hs1).
    destruct res as [r|e]; [|exact Hs1].
    destruct (chat_each groq_create rest s1) as [[rs|e] s2]; exact IH.
Qed.

End Outcomes.

(** ** Outcomes and composition on concrete requests *)

Module MoreRuns.

Import Samples.

(** A body with other keys beside ['message'] is answered like the body
    with the message alone. *)
Lemma chat_ignores_other_fields_witness :
  chat upstream_ok req_hello_extra s0 = chat upstream_ok req_hello s0.
Proof.
  apply (chat_ignores_other_fields upstream_ok req_hello_extra req_hello s0
           [ ("history", VList [ VStr "one"; VStr "two" ]);
             ("message", VStr "Hello");
             ("model", VStr "other") ]
           [ ("message", VStr "Hello") ]); reflexivity.
Defined.

(** One choice or two: the same answer. *)
Lemma chat_reads_first_choice_only_witness :
  fst (chat upstream_ok req_hello s0) =
  fst (chat upstream_two_choices req_hello s0).
Proof.
  apply (chat_reads_first_choice_only upstream_ok upstream_two_choices
           req_hello s0 (VStr "Hello")
           (completion (Some "Hi there!"))
           {| Groq.choices :=
                [ {| Groq.message := {| Groq.content := Some "Hi there!" |} |};
                  {| Groq.message := {| Groq.content := Some "Good day." |} |} ] |});
    reflexivity.
Defined.

(** [{}] with a healthy upstream and with one that refuses the
    credential. *)
Lemma chat_unforwarded_ignores_upstream_witness :
  chat upstream_ok req_empty_object s0 =
  chat upstream_unauthorized req_empty_object s0 /\
  snd (chat upstream_ok req_empty_object s0) = s0.
Proof.
  apply (chat_unforwarded_ignores_upstream upstream_ok upstream_unauthorized
           req_empty_object s0); reflexivity.
Defined.

(** Three requests against an upstream that refuses the credential: the
    list is handled to its end, and the one forwarded message is in the
    log. *)
Lemma chat_each_log_witness :
  exists rs : list response,
    fst (chat_each upstream_unauthorized
           [ req_empty_object; req_hello; req_malformed ] s0) = Return rs /\
    length rs = 3%nat /\
    calls (snd (chat_each upstream_unauthorized
                  [ req_empty_object; req_hello; req_malformed ] s0)) =
    [ chat_kwargs (VStr "Hello") ].
Proof.
  destruct (chat_each_log upstream_unauthorized
              [ req_empty_object; req_hello; req_malformed ] s0)
    as (Hlog & Hret).
  destruct Hret as (rs & Hrs).
  - intros req e [<- | [<- | [<- | []]]]; try discriminate.
    intros [= <-]. reflexivity.
  - intros kw w e [= <-]. reflexivity.
  - exists rs. split; [exact Hrs|]. exact (Hlog rs Hrs).
Defined.

(** Five requests, two of them forwarded, after one earlier call. *)
Lemma chat_each_calls_wellformed_witness :
  Forall (fun kw => exists v, kw = chat_kwargs v /\ truthy v = true)
         (calls (snd (chat_each upstream_ok
                        [ req_empty_object; req_hello; req_array;
                          req_number; req_malformed ]
                        {| world := 1%nat;
                           calls := [ chat_kwargs (VStr "Earlier") ] |}))).
Proof.
  apply (chat_each_calls_wellformed upstream_ok
           [ req_empty_object; req_hello; req_array; req_number; req_malformed ]
           {| world := 1%nat; calls := [ chat_kwargs (VStr "Earlier") ] |}).
  cbn. constructor; [|constructor].
  exists (VStr "Earlier"). split; reflexivity.
Defined.

End MoreRuns.
